(** * WiFiProvisioner: the pre-build hook [scripts/build_extra.py]

    A shallow embedding of the PlatformIO/SCons extra script that runs
    [embed_html.py] before the firmware is compiled, and the properties
    of its specification.

    The script has three kinds of effect: it writes lines to the build
    log with [print], it starts one child process with [subprocess.run],
    and, when the build tool evaluates it, it registers a callback with
    [env.AddPreAction].  The first two are modelled by a small state and
    error monad over a chronological event log; the behaviour of the
    operating system (what the child process does, or which exception
    the launch raises) is a parameter of the run.  Paths follow
    [pathlib] with the POSIX flavour. *)

From Stdlib Require Import String Ascii List ZArith Bool Lia.
Import ListNotations.

Local Open Scope string_scope.
Local Open Scope list_scope.

(** ** Strings: the two [str] methods the path code relies on *)

Module Str.

Definition sep : ascii := "/"%char.

(** [s.split("/")]: never empty, the empty string gives one empty piece. *)
Fixpoint split (s : string) : list string :=
  match s with
  | EmptyString => [EmptyString]
  | String c s' =>
      if Ascii.eqb c sep then EmptyString :: split s'
      else match split s' with
           | [] => [String c EmptyString]
           | w :: ws => String c w :: ws
           end
  end.

(** ["/".join(parts)] *)
Definition join (parts : list string) : string := String.concat "/" parts.

(** [sep not in s] *)
Fixpoint no_sep (s : string) : bool :=
  match s with
  | EmptyString => true
  | String c s' => negb (Ascii.eqb c sep) && no_sep s'
  end.

End Str.

(** ** [pathlib]: pure POSIX paths *)

Module pathlib.

(** A parsed path: the root (empty, ["/"] or ["//"]) and the components
    after it.  The drive is always empty with the POSIX flavour. *)
Record Path := mkPath { root : string; tail : list string }.

(** [posixpath.splitroot], without the drive: the root and the rest. *)
Definition splitroot (p : string) : string * string :=
  match p with
  | String c0 r0 =>
      if Ascii.eqb c0 Str.sep then
        match r0 with
        | String c1 r1 =>
            if Ascii.eqb c1 Str.sep then
              match r1 with
              | String c2 _ =>
                  if Ascii.eqb c2 Str.sep then ("/", r0) else ("//", r1)
              | EmptyString => ("//", r1)
              end
            else ("/", r0)
        | EmptyString => ("/", r0)
        end
      else (EmptyString, p)
  | EmptyString => (EmptyString, p)
  end.

(** The components kept when a path is parsed: [x and x != '.']. *)
Definition kept (x : string) : bool :=
  negb (x =? EmptyString) && negb (x =? ".").

(** [Path(s)] *)
Definition Path_of (s : string) : Path :=
  let (r, rel) := splitroot s in
  mkPath r (filter kept (Str.split rel)).

(** [_format_parsed_parts] *)
Definition format_parsed_parts (p : Path) : string :=
  if negb (root p =? EmptyString) then root p ++ Str.join (tail p)
  else Str.join (tail p).

(** [str(p)]: the formatted parts, or ["."] when there are none. *)
Definition str (p : Path) : string :=
  let s := format_parsed_parts p in
  if s =? EmptyString then "." else s.

(** [p.parent]: a path without components is its own parent. *)
Definition parent (p : Path) : Path :=
  match tail p with
  | [] => p
  | _ :: _ => mkPath (root p) (removelast (tail p))
  end.

(** [p.name]: the last component, or the empty string. *)
Definition name (p : Path) : string := last (tail p) EmptyString.

(** [p / key]: a rooted [key] replaces [p], another one is appended. *)
Definition truediv (p : Path) (key : string) : Path :=
  let q := Path_of key in
  if negb (root q =? EmptyString) then q
  else mkPath (root p) (tail p ++ tail q).

(** Paths as the parser produces them. *)
Definition component_ok (x : string) : Prop :=
  kept x = true /\ Str.no_sep x = true.

Definition wf (p : Path) : Prop :=
  (root p = EmptyString \/ root p = "/" \/ root p = "//") /\
  Forall component_ok (tail p).

End pathlib.

Notation "p // key" := (pathlib.truediv p key) (at level 40, left associativity).

(** ** Python values the script handles *)

(** What the build tool may pass to an action; the callback never looks
    at it. *)
Inductive object : Type :=
| PyNone
| PyInt (z : Z)
| PyStr (s : string)
| PyNodes (paths : list string).

(** The classes of exception a call of [subprocess.run] can end with.
    The last three derive from [BaseException] only. *)
Inductive exception_class : Type :=
| FileNotFoundError
| PermissionError
| OSError
| UnicodeDecodeError
| ValueError
| MemoryError
| KeyboardInterrupt
| SystemExit
| GeneratorExit.

(** A raised exception: its class and its [str(e)]. *)
Record BaseException := mkExc { exc_class : exception_class; exc_str : string }.

(** [isinstance(e, Exception)] *)
Definition isinstance_Exception (e : BaseException) : bool :=
  match exc_class e with
  | KeyboardInterrupt | SystemExit | GeneratorExit => false
  | _ => true
  end.

(** [subprocess.CompletedProcess] with [capture_output=True, text=True]. *)
Record CompletedProcess := mkCompleted {
  returncode : Z;
  stdout : string;
  stderr : string
}.

(** How one call of [subprocess.run] ends. *)
Inductive run_outcome : Type :=
| Completes (r : CompletedProcess)
| Raises (e : BaseException).

(** ** Effects *)

(** What the script does to the outside world, in order. *)
Inductive event : Type :=
| Printed (line : string)                        (* print(line) *)
| Spawned (argv : list string) (cwd : string).   (* subprocess.run(argv, cwd=cwd) *)

Definition is_spawn (e : event) : bool :=
  match e with Spawned _ _ => true | Printed _ => false end.

(** The lines given to [print], in order. *)
Fixpoint printed (log : list event) : list string :=
  match log with
  | [] => []
  | Printed l :: log' => l :: printed log'
  | Spawned _ _ :: log' => printed log'
  end.

(** The child processes started, in order. *)
Definition spawns (log : list event) : list event := filter is_spawn log.

(** The text that reaches the build log: [print] ends each line. *)
Fixpoint console (log : list event) : string :=
  match log with
  | [] => EmptyString
  | Printed l :: log' => l ++ String "010"%char (console log')
  | Spawned _ _ :: log' => console log'
  end.

(** The operating system: how the [n]-th launch of this run (counted from
    0) ends, given the command line and the working directory. *)
Definition OS := nat -> list string -> string -> run_outcome.

(** A computation reads the operating system, extends the log and either
    returns a value or raises. *)
Definition M (A : Type) : Type :=
  OS -> list event -> list event * (A + BaseException).

Definition ret {A} (a : A) : M A := fun _ log => (log, inl a).

Definition bind {A B} (m : M A) (k : A -> M B) : M B :=
  fun os log =>
    match m os log with
    | (log', inl a) => k a os log'
    | (log', inr e) => (log', inr e)
    end.

Notation "x <- m ;; k" := (bind m (fun x => k))
  (at level 61, m at next level, right associativity).
Notation "m ;; k" := (bind m (fun _ => k))
  (at level 61, right associativity).

(** [print(line)] *)
Definition print (line : string) : M unit :=
  fun _ log => (log ++ [Printed line], inl tt).

(** [subprocess.run(argv, capture_output=True, text=True, cwd=cwd)] *)
Definition subprocess_run (argv : list string) (cwd : string) : M CompletedProcess :=
  fun os log =>
    let log' := log ++ [Spawned argv cwd] in
    match os (length (spawns log)) argv cwd with
    | Completes r => (log', inl r)
    | Raises e => (log', inr e)
    end.

(** [try: body except Exception as e: handler(e)] *)
Definition try_except_Exception {A} (body : M A) (handler : BaseException -> M A) : M A :=
  fun os log =>
    match body os log with
    | (log', inr e) =>
        if isinstance_Exception e then handler e os log' else (log', inr e)
    | done => done
    end.

(** ** The script *)

Definition banner : string := "Running HTML embedding script...".

(** The callback [embed_html_callback], with its positional and keyword
    arguments; [__file__] is the path of the script, as the interpreter
    gives it.  Returning [tt] is Python's
    [None]. *)
Definition embed_html_callback (__file__ : string)
    (args : list object) (kwargs : list (string * object)) : M unit :=
  print banner ;;
  let script_dir := pathlib.parent (pathlib.Path_of __file__) in
  let project_root := pathlib.parent script_dir in
  let embed_script := script_dir // "embed_html.py" in
  try_except_Exception
    (result <- subprocess_run ["python3"; pathlib.str embed_script]
                              (pathlib.str project_root) ;;
     if (returncode result =? 0)%Z then
       print (stdout result)
     else
       print ("Error running embed script: " ++ stderr result))
    (fun e => print ("Failed to run HTML embedding script: " ++ exc_str e)).

(** What the build tool can be called back with. *)
Definition action : Type := list object -> list (string * object) -> M unit.

(** The registrations a build environment holds, oldest first. *)
Inductive registration : Type :=
| PreAction (target : string) (act : action)
| PostAction (target : string) (act : action).

Definition Environment : Type := list registration.

(** [env.AddPreAction(target, act)] *)
Definition AddPreAction (target : string) (act : action) (env : Environment) : Environment :=
  env ++ [PreAction target act].

(** Evaluating the script: the imports and the [def] register nothing,
    the last line registers the callback. *)
Definition build_extra (__file__ : string) (env : Environment) : Environment :=
  AddPreAction "buildprog" (embed_html_callback __file__) env.

(** Running a callback from an empty log. *)
Definition run {A} (m : M A) (os : OS) : list event * (A + BaseException) :=
  m os [].

Definition log_of {A} (r : list event * (A + BaseException)) : list event := fst r.
Definition result_of {A} (r : list event * (A + BaseException)) : A + BaseException := snd r.

(** Operating systems that give every launch the same end. *)
Definition always (o : run_outcome) : OS := fun _ _ _ => o.

(** ** The values the callback computes *)

Section Paths.

Variable __file__ : string.

(** The three paths. *)
Definition script_dir : pathlib.Path := pathlib.parent (pathlib.Path_of __file__).
Definition project_root : pathlib.Path := pathlib.parent script_dir.
Definition embed_script : pathlib.Path := script_dir // "embed_html.py".

(** The command line and the working directory handed to
    [subprocess.run]. *)
Definition command : list string := ["python3"; pathlib.str embed_script].
Definition working_dir : string := pathlib.str project_root.

(** How the operating system ends the first launch of a run. *)
Definition first_launch (os : OS) : run_outcome := os 0 command working_dir.

(** What one call does, as a function of the end of the launch. *)
Definition effect_of (o : run_outcome) : list event * (unit + BaseException) :=
  match o with
  | Completes r =>
      ([Printed banner; Spawned command working_dir;
        Printed (if (returncode r =? 0)%Z then stdout r
                 else "Error running embed script: " ++ stderr r)],
       inl tt)
  | Raises e =>
      if isinstance_Exception e then
        ([Printed banner; Spawned command working_dir;
          Printed ("Failed to run HTML embedding script: " ++ exc_str e)],
         inl tt)
      else ([Printed banner; Spawned command working_dir], inr e)
  end.

End Paths.

(** The end of line [print] writes. *)
Definition newline : string := String "010"%char EmptyString.

(** The registrations a script adds to the environment it is evaluated in. *)
Definition added_by (script : Environment -> Environment) (env : Environment) : list registration :=
  skipn (length env) (script env).

(** The operating system as a run sees it after [n] earlier launches. *)
Definition after_launches (n : nat) (os : OS) : OS := fun k => os (n + k).

(** ** Path lemmas *)

Module pathlib_facts.
Import pathlib.

Lemma split_nonempty (s : string) : Str.split s <> [].
Proof.
  induction s as [|c s IH]; simpl; [discriminate|].
  destruct (Ascii.eqb c Str.sep); [discriminate|].
  destruct (Str.split s); discriminate.
Qed.

(** No piece of a split contains the separator. *)
Lemma split_no_sep (s : string) :
  Forall (fun x => Str.no_sep x = true) (Str.split s).
Proof.
  induction s as [|c s IH]; simpl.
  - repeat constructor.
  - destruct (Ascii.eqb c Str.sep) eqn:E.
    + constructor; [reflexivity | exact IH].
    + destruct (Str.split s) as [|w ws].
      * repeat constructor. simpl. now rewrite E.
      * inversion IH; subst. constructor; [|assumption].
        simpl. rewrite E. assumption.
Qed.

Lemma split_single (x : string) :
  Str.no_sep x = true -> Str.split x = [x].
Proof.
  induction x as [|c x IH]; simpl; [reflexivity|].
  intros H. apply andb_true_iff in H as [Hc Hx].
  apply negb_true_iff in Hc. rewrite Hc, (IH Hx). reflexivity.
Qed.

Lemma split_app_sep (x rest : string) :
  Str.no_sep x = true ->
  Str.split (x ++ String Str.sep rest)%string = x :: Str.split rest.
Proof.
  induction x as [|c x IH]; simpl; intros H.
  - reflexivity.
  - apply andb_true_iff in H as [Hc Hx].
    apply negb_true_iff in Hc. rewrite Hc, (IH Hx). reflexivity.
Qed.

(** Splitting undoes joining, for pieces without a separator. *)
Lemma split_join (x : string) (xs : list string) :
  Forall (fun y => Str.no_sep y = true) (x :: xs) ->
  Str.split (Str.join (x :: xs)) = x :: xs.
Proof.
  revert x. induction xs as [|y ys IH]; intros x H.
  - inversion H; subst. now apply split_single.
  - inversion H as [|? ? Hx Hrest]; subst.
    change (Str.join (x :: y :: ys)) with (x ++ String Str.sep (Str.join (y :: ys)))%string.
    rewrite split_app_sep by assumption.
    now rewrite IH.
Qed.

Lemma filter_kept_id (xs : list string) :
  Forall component_ok xs -> filter kept xs = xs.
Proof.
  induction 1 as [|x xs [Hk _] _ IH]; simpl; [reflexivity|].
  now rewrite Hk, IH.
Qed.

Lemma component_ok_no_sep (xs : list string) :
  Forall component_ok xs -> Forall (fun y => Str.no_sep y = true) xs.
Proof. apply Forall_impl. now intros x [_ H]. Qed.

(** A joined list of components does not begin with the separator. *)
Lemma join_head (xs : list string) :
  Forall component_ok xs ->
  Str.join xs = EmptyString /\ xs = [] \/
  exists c s, Str.join xs = String c s /\ Ascii.eqb c Str.sep = false.
Proof.
  intros H. destruct H as [|x xs [Hk Hs] Hxs]; [now left|right].
  destruct x as [|c x]; [discriminate|].
  simpl in Hs. apply andb_true_iff in Hs as [Hc _].
  apply negb_true_iff in Hc.
  destruct xs; simpl; eexists _, _; (split; [reflexivity | exact Hc]).
Qed.

Lemma splitroot_roots (s : string) :
  let r := fst (splitroot s) in r = EmptyString \/ r = "/" \/ r = "//".
Proof.
  destruct s as [|c0 [|c1 [|c2 s]]]; simpl; auto;
    repeat match goal with
           | |- context [Ascii.eqb ?c Str.sep] => destruct (Ascii.eqb c Str.sep)
           end; simpl; auto.
Qed.

(** Parsing produces well-formed paths. *)
Lemma wf_Path_of (s : string) : wf (Path_of s).
Proof.
  unfold Path_of. pose proof (splitroot_roots s) as Hr.
  destruct (splitroot s) as [r rel]. split; [exact Hr|]. simpl.
  apply Forall_forall. intros x Hx. apply filter_In in Hx as [Hin Hk].
  split; [exact Hk|].
  pose proof (split_no_sep rel) as Hs.
  rewrite Forall_forall in Hs. now apply Hs.
Qed.

Lemma Forall_removelast {A} (P : A -> Prop) (l : list A) :
  Forall P l -> Forall P (removelast l).
Proof.
  induction 1 as [|x l Hx Hl IH]; simpl; [constructor|].
  destruct l; [constructor|]. now constructor.
Qed.

Lemma wf_parent (p : Path) : wf p -> wf (parent p).
Proof.
  intros [Hr Ht]. unfold parent. destruct (tail p) eqn:E.
  - split; [exact Hr | now rewrite E].
  - split; [exact Hr|].
    change (Forall component_ok (removelast (s :: l))).
    now apply Forall_removelast.
Qed.

(** Appending one plain component. *)
Lemma truediv_component (p : Path) (x : string) :
  component_ok x -> p // x = mkPath (root p) (tail p ++ [x]).
Proof.
  intros [Hk Hs]. unfold truediv, Path_of.
  assert (Hroot : splitroot x = (EmptyString, x)).
  { destruct x as [|c x]; [reflexivity|].
    simpl in Hs. apply andb_true_iff in Hs as [Hc _].
    apply negb_true_iff in Hc. simpl. now rewrite Hc. }
  rewrite Hroot. simpl. rewrite (split_single _ Hs). simpl. now rewrite Hk.
Qed.

Lemma wf_truediv_component (p : Path) (x : string) :
  wf p -> component_ok x -> wf (p // x).
Proof.
  intros [Hr Ht] Hx. rewrite truediv_component by assumption.
  split; [exact Hr|]. simpl. apply Forall_app. split; [assumption|].
  now constructor.
Qed.

(** The directory and the name of [p / x]. *)
Lemma parent_truediv (p : Path) (x : string) :
  component_ok x -> parent (p // x) = p.
Proof.
  intros Hx. rewrite truediv_component by assumption.
  unfold parent. simpl. destruct (tail p ++ [x]) eqn:E.
  - now apply app_eq_nil in E as [_ E].
  - rewrite <- E, removelast_last. now destruct p.
Qed.

Lemma name_truediv (p : Path) (x : string) :
  component_ok x -> name (p // x) = x.
Proof.
  intros Hx. rewrite truediv_component by assumption.
  unfold name. simpl. apply last_last.
Qed.

Lemma parse_components (t : list string) :
  Forall component_ok t -> filter kept (Str.split (Str.join t)) = t.
Proof.
  intros H. destruct t as [|x xs]; [reflexivity|].
  rewrite split_join by now apply component_ok_no_sep.
  now apply filter_kept_id.
Qed.

(** Parsing undoes printing: [Path(str(p)) == p]. *)
Lemma Path_of_str (p : Path) : wf p -> Path_of (str p) = p.
Proof.
  destruct p as [r t]. intros [Hr Ht]. simpl in Hr, Ht.
  pose proof (parse_components t Ht) as Hparse.
  unfold str, format_parsed_parts, Path_of. cbn [root tail].
  destruct (join_head t Ht) as [[Hj ->] | (c & s & Hj & Hc)].
  - destruct Hr as [-> | [-> | ->]]; reflexivity.
  - destruct Hr as [-> | [-> | ->]];
      cbn [negb String.eqb Ascii.eqb Bool.eqb append];
      rewrite Hj; cbn [String.eqb splitroot]; rewrite ?Ascii.eqb_refl, Hc;
      rewrite <- Hj, Hparse; reflexivity.
Qed.

End pathlib_facts.

(** ** Runs on concrete inputs *)

Example ex_ok :
  run (embed_html_callback "/proj/scripts/build_extra.py" [] [])
      (always (Completes (mkCompleted 0 "ok" EmptyString))) =
  ([Printed banner;
    Spawned ["python3"; "/proj/scripts/embed_html.py"] "/proj";
    Printed "ok"], inl tt).
Proof. reflexivity. Qed.

Example ex_bad :
  run (embed_html_callback "lib/x/scripts/build_extra.py" [] [])
      (always (Completes (mkCompleted 1 EmptyString "bad"))) =
  ([Printed banner;
    Spawned ["python3"; "lib/x/scripts/embed_html.py"] "lib/x";
    Printed "Error running embed script: bad"], inl tt).
Proof. reflexivity. Qed.

Example ex_shallow :
  run (embed_html_callback "build_extra.py" [] [])
      (always (Raises (mkExc FileNotFoundError "no python3"))) =
  ([Printed banner;
    Spawned ["python3"; "embed_html.py"] ".";
    Printed "Failed to run HTML embedding script: no python3"], inl tt).
Proof. reflexivity. Qed.

(** ** The callback, run *)

Section Callback.

Variable __file__ : string.

Lemma run_embed_html_callback args kwargs (os : OS) :
  run (embed_html_callback __file__ args kwargs) os = effect_of __file__ (first_launch __file__ os).
Proof.
  unfold run, embed_html_callback, bind, try_except_Exception, subprocess_run,
    print, effect_of, first_launch, command, working_dir, embed_script,
    project_root, script_dir.
  cbn [app spawns filter is_spawn length].
  destruct (os 0 _ _) as [r | e].
  - destruct (returncode r =? 0)%Z; reflexivity.
  - destruct (isinstance_Exception e); reflexivity.
Qed.

Lemma spawns_effect_of (o : run_outcome) :
  spawns (fst (effect_of __file__ o)) = [Spawned (command __file__) (working_dir __file__)].
Proof.
  destruct o as [r | e]; simpl; [reflexivity|].
  destruct (isinstance_Exception e); reflexivity.
Qed.

Lemma head_effect_of (o : run_outcome) :
  exists rest, fst (effect_of __file__ o) = Printed banner :: rest.
Proof.
  destruct o as [r | e]; simpl; [eauto|].
  destruct (isinstance_Exception e); simpl; eauto.
Qed.

End Callback.


Lemma prefix_app (a b : string) : String.prefix a (a ++ b) = true.
Proof.
  induction a as [|c a IH]; simpl.
  - now destruct b.
  - destruct (ascii_dec c c) as [_ | N]; [exact IH | now elim N].
Qed.

Lemma component_ok_embed_html : pathlib.component_ok "embed_html.py".
Proof. split; reflexivity. Qed.

Lemma wf_embed_script (file : string) : pathlib.wf (embed_script file).
Proof.
  apply pathlib_facts.wf_truediv_component; [|exact component_ok_embed_html].
  apply pathlib_facts.wf_parent, pathlib_facts.wf_Path_of.
Qed.

(** Two levels up: the project root of [<root>/ds.../d/f] is [<root>/ds...]. *)
Lemma parent_parent_two_levels (r : string) (ds : list string) (d f : string) :
  pathlib.parent (pathlib.parent (pathlib.mkPath r (ds ++ [d; f]))) = pathlib.mkPath r ds.
Proof.
  unfold pathlib.parent at 2. cbn [pathlib.tail pathlib.root].
  destruct (ds ++ [d; f]) eqn:E; [now apply app_eq_nil in E as [_ E]|].
  rewrite <- E. change [d; f] with ([d] ++ [f]).
  rewrite app_assoc, removelast_last.
  unfold pathlib.parent. cbn [pathlib.tail pathlib.root].
  destruct (ds ++ [d]) eqn:E'; [now apply app_eq_nil in E' as [_ E']|].
  rewrite <- E', removelast_last. reflexivity.
Qed.

(** ** The properties of the specification *)

(** C3: when the child process exits with code 0 and captured standard
    output [s], the callback prints the banner and then [s], and returns
    [None] without raising. *)
Theorem C3_success_prints_stdout
    (file : string) args kwargs (os : OS) (r : CompletedProcess)
    (Hrun : first_launch file os = Completes r)
    (Hzero : returncode r = 0%Z) :
  printed (log_of (run (embed_html_callback file args kwargs) os)) = [banner; stdout r] /\
  result_of (run (embed_html_callback file args kwargs) os) = inl tt.
Proof.
  rewrite run_embed_html_callback, Hrun. simpl.
  rewrite Hzero. split; reflexivity.
Qed.

Lemma C3_success_prints_stdout_witness :
  printed (log_of (run (embed_html_callback "/proj/scripts/build_extra.py" [] [])
                       (always (Completes (mkCompleted 0 "ok" "warn")))))
    = [banner; "ok"] /\
  result_of (run (embed_html_callback "/proj/scripts/build_extra.py" [] [])
                 (always (Completes (mkCompleted 0 "ok" "warn"))))
    = inl tt.
Proof.
  apply (C3_success_prints_stdout "/proj/scripts/build_extra.py" [] []
           (always (Completes (mkCompleted 0 "ok" "warn")))
           (mkCompleted 0 "ok" "warn")); reflexivity.
Defined.

(** C1, as the code has it: when the child process exits with a code
    other than 0, the callback prints the banner and then one line made of
    the text [Error running embed script: ] followed by the captured
    standard error, unchanged, and returns [None] without raising. *)
Theorem C1_failure_prints_prefixed_stderr
    (file : string) args kwargs (os : OS) (r : CompletedProcess)
    (Hrun : first_launch file os = Completes r)
    (Hnonzero : returncode r <> 0%Z) :
  printed (log_of (run (embed_html_callback file args kwargs) os))
    = [banner; ("Error running embed script: " ++ stderr r)%string] /\
  result_of (run (embed_html_callback file args kwargs) os) = inl tt.
Proof.
  rewrite run_embed_html_callback, Hrun. simpl.
  apply Z.eqb_neq in Hnonzero. rewrite Hnonzero. split; reflexivity.
Qed.

Lemma C1_failure_prints_prefixed_stderr_witness :
  printed (log_of (run (embed_html_callback "/proj/scripts/build_extra.py" [] [])
                       (always (Completes (mkCompleted 1 "out" "bad")))))
    = [banner; "Error running embed script: bad"] /\
  result_of (run (embed_html_callback "/proj/scripts/build_extra.py" [] [])
                 (always (Completes (mkCompleted 1 "out" "bad"))))
    = inl tt.
Proof.
  apply (C1_failure_prints_prefixed_stderr "/proj/scripts/build_extra.py" [] []
           (always (Completes (mkCompleted 1 "out" "bad")))
           (mkCompleted 1 "out" "bad")); [reflexivity | simpl; lia].
Defined.

(** C1, as stated, fails: with exit code 1 and captured standard error
    [bad], no line the callback prints is [bad]; the text that reaches the
    build log is the banner line and [Error running embed script: bad]. *)
Lemma C1_stderr_not_printed_as_captured :
  ~ In "bad"
       (printed (log_of (run (embed_html_callback "/proj/scripts/build_extra.py" [] [])
                             (always (Completes (mkCompleted 1 EmptyString "bad")))))) /\
  console (log_of (run (embed_html_callback "/proj/scripts/build_extra.py" [] [])
                       (always (Completes (mkCompleted 1 EmptyString "bad")))))
    = (banner ++ newline ++ "Error running embed script: bad" ++ newline)%string /\
  console (log_of (run (embed_html_callback "/proj/scripts/build_extra.py" [] [])
                       (always (Completes (mkCompleted 1 EmptyString "bad")))))
    <> (banner ++ newline ++ "bad" ++ newline)%string.
Proof.
  split; [|split].
  - simpl. intros [H | [H | []]]; discriminate H.
  - reflexivity.
  - discriminate.
Qed.

(** C2, as the code has it: when the launch raises an exception that is an
    instance of [Exception], the callback catches it, prints the banner and
    then [Failed to run HTML embedding script: ] followed by the text of the
    exception, and returns [None]: nothing propagates. *)
Theorem C2_launch_Exception_is_caught
    (file : string) args kwargs (os : OS) (e : BaseException)
    (Hrun : first_launch file os = Raises e)
    (Hexc : isinstance_Exception e = true) :
  printed (log_of (run (embed_html_callback file args kwargs) os))
    = [banner; ("Failed to run HTML embedding script: " ++ exc_str e)%string] /\
  result_of (run (embed_html_callback file args kwargs) os) = inl tt.
Proof.
  rewrite run_embed_html_callback, Hrun. simpl.
  rewrite Hexc. split; reflexivity.
Qed.

Lemma C2_launch_Exception_is_caught_witness :
  printed (log_of (run (embed_html_callback "/proj/scripts/build_extra.py" [] [])
                       (always (Raises (mkExc FileNotFoundError "No such file: 'python3'")))))
    = [banner; "Failed to run HTML embedding script: No such file: 'python3'"] /\
  result_of (run (embed_html_callback "/proj/scripts/build_extra.py" [] [])
                 (always (Raises (mkExc FileNotFoundError "No such file: 'python3'"))))
    = inl tt.
Proof.
  apply (C2_launch_Exception_is_caught "/proj/scripts/build_extra.py" [] []
           (always (Raises (mkExc FileNotFoundError "No such file: 'python3'")))
           (mkExc FileNotFoundError "No such file: 'python3'")); reflexivity.
Defined.

(** C2, as stated, fails: a [KeyboardInterrupt] raised while the child
    process is run is not an [Exception]; the handler does not apply, no
    failure message is printed and the exception leaves the callback. *)
Lemma C2_KeyboardInterrupt_propagates :
  result_of (run (embed_html_callback "/proj/scripts/build_extra.py" [] [])
                 (always (Raises (mkExc KeyboardInterrupt "interrupted"))))
    = inr (mkExc KeyboardInterrupt "interrupted") /\
  result_of (run (embed_html_callback "/proj/scripts/build_extra.py" [] [])
                 (always (Raises (mkExc KeyboardInterrupt "interrupted"))))
    <> inl tt /\
  printed (log_of (run (embed_html_callback "/proj/scripts/build_extra.py" [] [])
                       (always (Raises (mkExc KeyboardInterrupt "interrupted")))))
    = [banner].
Proof.
  split; [reflexivity | split; [discriminate | reflexivity]].
Qed.

(** C4: evaluating the script adds exactly one registration to the build
    environment, whatever it held before: the callback, as an action to run
    before the target [buildprog] is built; the earlier registrations are
    kept as they were. *)
Theorem C4_registered_once (file : string) (env : Environment) :
  added_by (build_extra file) env = [PreAction "buildprog" (embed_html_callback file)] /\
  firstn (length env) (build_extra file env) = env /\
  length (build_extra file env) = S (length env).
Proof.
  unfold added_by, build_extra, AddPreAction. repeat split.
  - rewrite skipn_app, skipn_all, Nat.sub_diag. reflexivity.
  - rewrite firstn_app, firstn_all, Nat.sub_diag. simpl. apply app_nil_r.
  - rewrite length_app. simpl. lia.
Qed.

(** C5: the child process is started with the working directory
    [str(Path(__file__).parent.parent)]: the script directory is the parent
    of the script's own path and the project root is the parent of the
    script directory. *)
Theorem C5_working_directory_is_project_root
    (file : string) args kwargs (os : OS) :
  exists argv,
    spawns (log_of (run (embed_html_callback file args kwargs) os))
      = [Spawned argv
           (pathlib.str (pathlib.parent (pathlib.parent (pathlib.Path_of file))))].
Proof.
  exists (command file).
  unfold log_of. rewrite run_embed_html_callback. apply spawns_effect_of.
Qed.

(** C6: the command line is [python3] followed by one path, and that path
    names the file [embed_html.py] in the directory of the build script
    itself. *)
Theorem C6_command_runs_sibling_script
    (file : string) args kwargs (os : OS) :
  exists path cwd,
    spawns (log_of (run (embed_html_callback file args kwargs) os))
      = [Spawned ["python3"; path] cwd] /\
    pathlib.name (pathlib.Path_of path) = "embed_html.py" /\
    pathlib.parent (pathlib.Path_of path) = pathlib.parent (pathlib.Path_of file).
Proof.
  exists (pathlib.str (embed_script file)), (working_dir file).
  split; [|split].
  - unfold log_of. rewrite run_embed_html_callback. apply spawns_effect_of.
  - rewrite pathlib_facts.Path_of_str by apply wf_embed_script.
    apply pathlib_facts.name_truediv, component_ok_embed_html.
  - rewrite pathlib_facts.Path_of_str by apply wf_embed_script.
    apply pathlib_facts.parent_truediv, component_ok_embed_html.
Qed.

(** C7: whatever the operating system answers, one call of the callback
    starts exactly one child process; the answers the operating system
    would give to later launches are never asked for (no retry), and
    the whole call is the banner, that launch and at most one more printed
    line: nothing is checked afterwards. *)
Theorem C7_one_launch_per_call
    (file : string) args kwargs (os : OS) :
  length (spawns (log_of (run (embed_html_callback file args kwargs) os))) = 1 /\
  run (embed_html_callback file args kwargs) os
    = run (embed_html_callback file args kwargs) (fun _ => os 0) /\
  exists after,
    log_of (run (embed_html_callback file args kwargs) os)
      = Printed banner :: Spawned (command file) (working_dir file) :: after /\
    spawns after = [] /\ length after <= 1.
Proof.
  split; [|split].
  - unfold log_of. rewrite run_embed_html_callback, spawns_effect_of. reflexivity.
  - rewrite !run_embed_html_callback. reflexivity.
  - unfold log_of. rewrite run_embed_html_callback.
    destruct (first_launch file os) as [r | e]; simpl.
    + eexists. split; [reflexivity|]. split; [reflexivity | simpl; lia].
    + destruct (isinstance_Exception e); simpl;
        (eexists; split; [reflexivity|]; split; [reflexivity | simpl; lia]).
Qed.

(** C8: in every branch, the first thing the callback does is print the
    banner [Running HTML embedding script...]; the text it writes begins
    with that line. *)
Theorem C8_banner_first
    (file : string) args kwargs (os : OS) :
  exists rest,
    log_of (run (embed_html_callback file args kwargs) os) = Printed banner :: rest /\
    String.prefix (banner ++ newline)
      (console (log_of (run (embed_html_callback file args kwargs) os))) = true.
Proof.
  unfold log_of. rewrite run_embed_html_callback.
  destruct (head_effect_of file (first_launch file os)) as [rest H].
  exists rest. split; [exact H|].
  rewrite H. cbn [console].
  replace (banner ++ String "010"%char (console rest))%string
    with ((banner ++ newline) ++ console rest)%string by reflexivity.
  apply prefix_app.
Qed.

(** C9: what a call prints and returns depends on the captured streams
    only through the one the exit code selects: with exit code 0 two
    results with the same standard output give the same run whatever their
    standard errors are, and with exit codes other than 0 two results with
    the same standard error give the same run whatever their standard
    outputs are. *)
Theorem C9_one_stream_forwarded
    (file : string) args kwargs (os1 os2 : OS) (r1 r2 : CompletedProcess)
    (H1 : first_launch file os1 = Completes r1)
    (H2 : first_launch file os2 = Completes r2)
    (Hsame : if (returncode r1 =? 0)%Z
             then returncode r2 = 0%Z /\ stdout r1 = stdout r2
             else returncode r2 <> 0%Z /\ stderr r1 = stderr r2) :
  run (embed_html_callback file args kwargs) os1
    = run (embed_html_callback file args kwargs) os2.
Proof.
  rewrite !run_embed_html_callback, H1, H2. simpl.
  destruct (returncode r1 =? 0)%Z; destruct Hsame as [Hrc Hs].
  - rewrite Hrc, Hs. reflexivity.
  - apply Z.eqb_neq in Hrc. rewrite Hrc, Hs. reflexivity.
Qed.

Lemma C9_one_stream_forwarded_witness :
  run (embed_html_callback "/proj/scripts/build_extra.py" [] [])
      (always (Completes (mkCompleted 0 "ok" "warning: a")))
    = run (embed_html_callback "/proj/scripts/build_extra.py" [] [])
          (always (Completes (mkCompleted 0 "ok" "warning: b"))) /\
  run (embed_html_callback "/proj/scripts/build_extra.py" [] [])
      (always (Completes (mkCompleted 1 "partial" "bad")))
    = run (embed_html_callback "/proj/scripts/build_extra.py" [] [])
          (always (Completes (mkCompleted 2 "other" "bad"))).
Proof.
  split.
  - apply (C9_one_stream_forwarded "/proj/scripts/build_extra.py" [] [] _ _
             (mkCompleted 0 "ok" "warning: a") (mkCompleted 0 "ok" "warning: b"));
      [reflexivity | reflexivity | simpl; split; reflexivity].
  - apply (C9_one_stream_forwarded "/proj/scripts/build_extra.py" [] [] _ _
             (mkCompleted 1 "partial" "bad") (mkCompleted 2 "other" "bad"));
      [reflexivity | reflexivity | simpl; split; [lia | reflexivity]].
Defined.

(** C10: the arguments are ignored: two calls with any positional and
    keyword arguments, under the same operating system, print the same
    lines, start the same process and return the same value. *)
Theorem C10_arguments_ignored
    (file : string) args kwargs args' kwargs' (os : OS) :
  run (embed_html_callback file args kwargs) os
    = run (embed_html_callback file args' kwargs') os.
Proof. rewrite !run_embed_html_callback. reflexivity. Qed.

(** ** Further properties of the script *)

Lemma root_parent (p : pathlib.Path) : pathlib.root (pathlib.parent p) = pathlib.root p.
Proof. unfold pathlib.parent. destruct (pathlib.tail p); reflexivity. Qed.

Lemma tail_parent (p : pathlib.Path) :
  pathlib.tail (pathlib.parent p) = removelast (pathlib.tail p).
Proof. unfold pathlib.parent. destruct (pathlib.tail p) eqn:E; [exact E | reflexivity]. Qed.

Lemma removelast_twice {A} (l : list A) :
  removelast (removelast l) = firstn (length l - 2) l.
Proof.
  rewrite (removelast_firstn_len l).
  rewrite removelast_firstn_len, firstn_firstn, length_firstn.
  f_equal. lia.
Qed.

Lemma wf_project_root (file : string) : pathlib.wf (project_root file).
Proof. apply pathlib_facts.wf_parent, pathlib_facts.wf_parent, pathlib_facts.wf_Path_of. Qed.

Lemma str_nonempty (p : pathlib.Path) : pathlib.str p <> EmptyString.
Proof.
  unfold pathlib.str. destruct (pathlib.format_parsed_parts p =? EmptyString) eqn:E.
  - discriminate.
  - now apply String.eqb_neq.
Qed.

(** The callback started on any log. *)
Lemma callback_from_log (file : string) args kwargs (os : OS) (log : list event) :
  embed_html_callback file args kwargs os log =
  (log ++ fst (effect_of file (os (length (spawns log)) (command file) (working_dir file))),
   snd (effect_of file (os (length (spawns log)) (command file) (working_dir file)))).
Proof.
  assert (Hn : length (spawns (log ++ [Printed banner])) = length (spawns log)).
  { unfold spawns. rewrite filter_app. simpl. now rewrite app_nil_r. }
  unfold embed_html_callback, bind, try_except_Exception, subprocess_run, print.
  rewrite Hn.
  change (pathlib.str (pathlib.parent (pathlib.Path_of file) // "embed_html.py"))
    with (pathlib.str (embed_script file)).
  change (pathlib.str (pathlib.parent (pathlib.parent (pathlib.Path_of file))))
    with (working_dir file).
  change ["python3"; pathlib.str (embed_script file)] with (command file).
  destruct (os (length (spawns log)) (command file) (working_dir file)) as [r | e];
    unfold effect_of.
  - destruct (returncode r =? 0)%Z; cbn [fst snd];
      rewrite <- !app_assoc; reflexivity.
  - destruct (isinstance_Exception e); cbn [fst snd];
      rewrite <- !app_assoc; reflexivity.
Qed.

Lemma path_eta (p : pathlib.Path) : p = pathlib.mkPath (pathlib.root p) (pathlib.tail p).
Proof. now destruct p. Qed.

Lemma project_root_components (file : string) :
  project_root file =
  pathlib.mkPath (pathlib.root (pathlib.Path_of file))
    (firstn (length (pathlib.tail (pathlib.Path_of file)) - 2)
            (pathlib.tail (pathlib.Path_of file))).
Proof.
  rewrite (path_eta (project_root file)). unfold project_root, script_dir.
  now rewrite !root_parent, !tail_parent, removelast_twice.
Qed.

Lemma root_embed_script (file : string) :
  pathlib.root (embed_script file) = pathlib.root (pathlib.Path_of file).
Proof.
  unfold embed_script, script_dir.
  rewrite pathlib_facts.truediv_component by exact component_ok_embed_html.
  apply root_parent.
Qed.

Lemma tail_embed_script (file : string) :
  pathlib.tail (embed_script file) = pathlib.tail (script_dir file) ++ ["embed_html.py"].
Proof.
  unfold embed_script.
  now rewrite pathlib_facts.truediv_component by exact component_ok_embed_html.
Qed.

(** The working directory joined with the script argument. *)
Lemma join_cwd_script (file : string) :
  pathlib.Path_of (working_dir file) // pathlib.str (embed_script file) =
  if negb (pathlib.root (pathlib.Path_of file) =? EmptyString) then embed_script file
  else pathlib.mkPath (pathlib.root (pathlib.Path_of file))
         (pathlib.tail (project_root file) ++ pathlib.tail (embed_script file)).
Proof.
  unfold pathlib.truediv, working_dir.
  rewrite (pathlib_facts.Path_of_str _ (wf_embed_script file)).
  rewrite (pathlib_facts.Path_of_str _ (wf_project_root file)).
  rewrite root_embed_script. unfold project_root, script_dir.
  now rewrite !root_parent.
Qed.

Lemma spawns_run (file : string) args kwargs (os : OS) :
  spawns (log_of (run (embed_html_callback file args kwargs) os))
    = [Spawned ["python3"; pathlib.str (embed_script file)] (working_dir file)].
Proof. unfold log_of. rewrite run_embed_html_callback. apply spawns_effect_of. Qed.

(** X1: the callback raises exactly when the launch raised an exception
    that is not an instance of [Exception]; it then raises that very
    exception and has printed the banner only. *)
Theorem X1_raises_iff_launch_raised_non_Exception
    (file : string) args kwargs (os : OS) (e : BaseException) :
  (result_of (run (embed_html_callback file args kwargs) os) = inr e <->
   first_launch file os = Raises e /\ isinstance_Exception e = false) /\
  (result_of (run (embed_html_callback file args kwargs) os) = inr e ->
   printed (log_of (run (embed_html_callback file args kwargs) os)) = [banner]).
Proof.
  unfold result_of, log_of. rewrite run_embed_html_callback.
  destruct (first_launch file os) as [r | e'] eqn:E; simpl.
  - split; [split|]; [discriminate | intros [H _]; discriminate H | discriminate].
  - destruct (isinstance_Exception e') eqn:Ei; simpl.
    + split; [split|]; [discriminate | | discriminate].
      intros [H Hf]. injection H as ->. congruence.
    + split; [split|].
      * intros H. injection H as ->. now split.
      * intros [H _]. now injection H as ->.
      * reflexivity.
Qed.

(** X2: the working directory of the child is the script's path without
    its last two components; a path with two components or fewer leaves
    none, and the working directory is then the root or [.]. *)
Theorem X2_working_directory_drops_two_components
    (file : string) args kwargs (os : OS) :
  exists argv,
    spawns (log_of (run (embed_html_callback file args kwargs) os))
      = [Spawned argv
           (pathlib.str
              (pathlib.mkPath (pathlib.root (pathlib.Path_of file))
                 (firstn (length (pathlib.tail (pathlib.Path_of file)) - 2)
                         (pathlib.tail (pathlib.Path_of file)))))].
Proof.
  eexists. rewrite spawns_run. unfold working_dir.
  now rewrite project_root_components.
Qed.

(** X3: whatever [__file__] is, even empty, neither the script argument
    nor the working directory handed to [subprocess.run] is the empty
    string. *)
Theorem X3_no_empty_path
    (file : string) args kwargs (os : OS) :
  exists path cwd,
    spawns (log_of (run (embed_html_callback file args kwargs) os))
      = [Spawned ["python3"; path] cwd] /\
    path <> EmptyString /\ cwd <> EmptyString.
Proof.
  do 2 eexists. split; [apply spawns_run|].
  split; apply str_nonempty.
Qed.

(** X4: nothing is made absolute: the script argument and the working
    directory have the root of [__file__], so both are relative when
    [__file__] is relative and absolute when it is absolute. *)
Theorem X4_root_of_file_is_kept
    (file : string) args kwargs (os : OS) :
  exists path cwd,
    spawns (log_of (run (embed_html_callback file args kwargs) os))
      = [Spawned ["python3"; path] cwd] /\
    pathlib.root (pathlib.Path_of path) = pathlib.root (pathlib.Path_of file) /\
    pathlib.root (pathlib.Path_of cwd) = pathlib.root (pathlib.Path_of file).
Proof.
  do 2 eexists. split; [apply spawns_run|]. split.
  - rewrite (pathlib_facts.Path_of_str _ (wf_embed_script file)).
    apply root_embed_script.
  - unfold working_dir.
    rewrite (pathlib_facts.Path_of_str _ (wf_project_root file)).
    unfold project_root, script_dir. now rewrite !root_parent.
Qed.

(** X5: when [__file__] is absolute, the script argument joined to the
    working directory of the child is the sibling script
    [Path(__file__).parent / "embed_html.py"] itself. *)
Theorem X5_absolute_file_reaches_sibling
    (file : string) args kwargs (os : OS)
    (Habs : (pathlib.root (pathlib.Path_of file) =? EmptyString) = false) :
  exists path cwd,
    spawns (log_of (run (embed_html_callback file args kwargs) os))
      = [Spawned ["python3"; path] cwd] /\
    pathlib.Path_of cwd // path
      = pathlib.parent (pathlib.Path_of file) // "embed_html.py".
Proof.
  do 2 eexists. split; [apply spawns_run|].
  rewrite join_cwd_script. now rewrite Habs.
Qed.

Lemma X5_absolute_file_reaches_sibling_witness :
  exists path cwd,
    spawns (log_of (run (embed_html_callback "/proj/scripts/build_extra.py" [] [])
                        (always (Completes (mkCompleted 0 "ok" EmptyString)))))
      = [Spawned ["python3"; path] cwd] /\
    pathlib.Path_of cwd // path
      = pathlib.parent (pathlib.Path_of "/proj/scripts/build_extra.py") // "embed_html.py".
Proof.
  apply (X5_absolute_file_reaches_sibling "/proj/scripts/build_extra.py" [] []
           (always (Completes (mkCompleted 0 "ok" EmptyString)))).
  reflexivity.
Defined.

(** X6: when [__file__] is relative, the script argument joined to the
    working directory of the child has the components of the project root
    twice; it is the sibling script only when the project root has no
    component, that is when [__file__] has two components at most. *)
Theorem X6_relative_file_repeats_project_root
    (file : string) args kwargs (os : OS)
    (Hrel : pathlib.root (pathlib.Path_of file) = EmptyString) :
  exists path cwd,
    spawns (log_of (run (embed_html_callback file args kwargs) os))
      = [Spawned ["python3"; path] cwd] /\
    pathlib.Path_of cwd // path
      = pathlib.mkPath EmptyString
          (pathlib.tail (pathlib.parent (pathlib.parent (pathlib.Path_of file)))
           ++ pathlib.tail (pathlib.parent (pathlib.Path_of file))
           ++ ["embed_html.py"]) /\
    (pathlib.Path_of cwd // path
       = pathlib.parent (pathlib.Path_of file) // "embed_html.py"
     <-> length (pathlib.tail (pathlib.Path_of file)) <= 2).
Proof.
  do 2 eexists. split; [apply spawns_run|].
  rewrite join_cwd_script, Hrel. cbn [String.eqb negb].
  rewrite tail_embed_script. fold (script_dir file) (project_root file).
  split; [reflexivity|].
  fold (embed_script file).
  rewrite (path_eta (embed_script file)), root_embed_script, Hrel, tail_embed_script.
  rewrite project_root_components. cbn [pathlib.tail].
  set (t := pathlib.tail (pathlib.Path_of file)).
  set (x := pathlib.tail (script_dir file) ++ ["embed_html.py"]).
  split.
  - intros H. injection H as H.
    change x with ([] ++ x) in H at 2. apply app_inv_tail in H.
    apply (f_equal (@length _)) in H. rewrite length_firstn in H. simpl in H. lia.
  - intros H. replace (length t - 2) with 0 by lia. reflexivity.
Qed.

Lemma X6_relative_file_repeats_project_root_witness :
  exists path cwd,
    spawns (log_of (run (embed_html_callback "lib/x/scripts/build_extra.py" [] [])
                        (always (Completes (mkCompleted 0 "ok" EmptyString)))))
      = [Spawned ["python3"; path] cwd] /\
    pathlib.Path_of cwd // path
      = pathlib.mkPath EmptyString
          (pathlib.tail (pathlib.parent (pathlib.parent
                           (pathlib.Path_of "lib/x/scripts/build_extra.py")))
           ++ pathlib.tail (pathlib.parent (pathlib.Path_of "lib/x/scripts/build_extra.py"))
           ++ ["embed_html.py"]) /\
    (pathlib.Path_of cwd // path
       = pathlib.parent (pathlib.Path_of "lib/x/scripts/build_extra.py") // "embed_html.py"
     <-> length (pathlib.tail (pathlib.Path_of "lib/x/scripts/build_extra.py")) <= 2).
Proof.
  apply (X6_relative_file_repeats_project_root "lib/x/scripts/build_extra.py" [] []
           (always (Completes (mkCompleted 0 "ok" EmptyString)))).
  reflexivity.
Defined.

Example ex_relative_deep :
  pathlib.Path_of (working_dir "lib/x/scripts/build_extra.py")
    // pathlib.str (embed_script "lib/x/scripts/build_extra.py")
  = pathlib.mkPath EmptyString ["lib"; "x"; "lib"; "x"; "scripts"; "embed_html.py"].
Proof. reflexivity. Qed.

(** X7: started on any log, the callback keeps that log as it is and adds
    to it what a fresh run adds, the launch being numbered after those
    already in the log. *)
Theorem X7_appends_to_log
    (file : string) args kwargs (os : OS) (log : list event) :
  embed_html_callback file args kwargs os log =
  (log ++ log_of (run (embed_html_callback file args kwargs)
                      (after_launches (length (spawns log)) os)),
   result_of (run (embed_html_callback file args kwargs)
                  (after_launches (length (spawns log)) os))).
Proof.
  rewrite callback_from_log, run_embed_html_callback.
  unfold first_launch, after_launches, log_of, result_of.
  now rewrite Nat.add_0_r.
Qed.

(** X8: two calls in a row launch the child twice when the first call
    returns, the second call being answered as launch number 1; when the
    first call raises, the second call does not happen and there is one
    launch only. *)
Theorem X8_two_calls
    (file : string) args kwargs args' kwargs' (os : OS) :
  run (embed_html_callback file args kwargs ;; embed_html_callback file args' kwargs') os =
    match result_of (run (embed_html_callback file args kwargs) os) with
    | inl _ =>
        (log_of (run (embed_html_callback file args kwargs) os)
           ++ log_of (run (embed_html_callback file args' kwargs') (after_launches 1 os)),
         result_of (run (embed_html_callback file args' kwargs') (after_launches 1 os)))
    | inr e => (log_of (run (embed_html_callback file args kwargs) os), inr e)
    end /\
  length (spawns (log_of
            (run (embed_html_callback file args kwargs ;;
                  embed_html_callback file args' kwargs') os))) =
    match result_of (run (embed_html_callback file args kwargs) os) with
    | inl _ => 2
    | inr _ => 1
    end.
Proof.
  assert (Hseq :
    run (embed_html_callback file args kwargs ;; embed_html_callback file args' kwargs') os =
    match result_of (run (embed_html_callback file args kwargs) os) with
    | inl _ =>
        (log_of (run (embed_html_callback file args kwargs) os)
           ++ log_of (run (embed_html_callback file args' kwargs') (after_launches 1 os)),
         result_of (run (embed_html_callback file args' kwargs') (after_launches 1 os)))
    | inr e => (log_of (run (embed_html_callback file args kwargs) os), inr e)
    end).
  { unfold run, bind, log_of, result_of.
    pose proof (callback_from_log file args kwargs os []) as E.
    destruct (embed_html_callback file args kwargs os []) as [l [u | e]];
      cbn [fst snd]; [|reflexivity].
    injection E as El _. cbn [app] in El.
    rewrite (callback_from_log file args' kwargs' os l).
    rewrite (callback_from_log file args' kwargs' (after_launches 1 os) []).
    rewrite El, spawns_effect_of. reflexivity. }
  split; [exact Hseq|].
  rewrite Hseq.
  pose proof (spawns_run file args kwargs os) as Hone.
  pose proof (spawns_run file args' kwargs' (after_launches 1 os)) as Hone'.
  destruct (result_of (run (embed_html_callback file args kwargs) os)) as [u | e];
    unfold log_of in *; cbn [fst].
  - unfold spawns in *. rewrite filter_app, length_app, Hone, Hone'. reflexivity.
  - now rewrite Hone.
Qed.
